(** * DockDev: the remote deployment pipeline

    A shallow embedding of [app/src/server/projLevel/deploy.js]: the
    deployment record, the per-role container configuration generator,
    and the coroutine steps that provision, build, synchronise and create
    containers on the remote machine.

    JavaScript objects with a fixed shape are records, objects used as
    dictionaries (computed keys) are [gmap string], template strings are
    string concatenation, and a [co] coroutine is a finite program over
    the external calls it yields on. *)

From stdpp Require Import gmap strings list fin_maps pretty.

Local Open Scope string_scope.
Local Open Scope list_scope.

(** ** Data model *)

(** A container entry.  [nginx] is only assigned by [addNginxContainer];
    on every other entry the property is absent, which JavaScript reads
    as a falsy value, hence [false]. *)
Module Container.
Record t : Type := mk {
  cleanName : string;
  image : string;
  dockerId : string;
  name : string;
  server : bool;
  nginx : bool;
  status : string;
  machine : string;
}.

Definition set_name (v : string) (c : t) : t :=
  mk (cleanName c) (image c) (dockerId c) v (server c) (nginx c)
     (status c) (machine c).

Definition set_nginx (v : bool) (c : t) : t :=
  mk (cleanName c) (image c) (dockerId c) (name c) (server c) v
     (status c) (machine c).

Definition set_dockerId (v : string) (c : t) : t :=
  mk (cleanName c) (image c) v (name c) (server c) (nginx c)
     (status c) (machine c).

Definition set_machine (v : string) (c : t) : t :=
  mk (cleanName c) (image c) (dockerId c) (name c) (server c) (nginx c)
     (status c) v.
End Container.

(** The deployment record threaded through the steps ([remoteObj]). *)
Module RemoteObj.
Record t : Type := mk {
  cleanName : string;
  basePath : string;
  machine : string;
  ipAddress : string;
  containers : list Container.t;
  counter : Z;
  status : Z;
}.

Definition set_ipAddress (v : string) (r : t) : t :=
  mk (cleanName r) (basePath r) (machine r) v (containers r)
     (counter r) (status r).
End RemoteObj.

(** The payload handed to the container runtime.  A property that an
    object literal does not mention is [None]. *)
Module Config.
Record PortBinding : Type := mkPortBinding { HostPort : string }.

Record HostConfigT : Type := mkHostConfig {
  NetworkMode : option string;
  Binds : option (list string);
  PortBindings : option (gmap string (list PortBinding));
}.

Record t : Type := mk {
  image : string;
  name : string;
  Env : option (list string);
  HostConfig : HostConfigT;
  ExposedPorts : option (gmap string unit);
}.
End Config.

(** The image description passed to [containerObj]. *)
Module ImageObj.
Record t : Type := mk { name : string; server : bool }.
End ImageObj.

(** ** The deployment record and the configuration generator *)

Definition createRemoteObj (cleanName basePath : string) : RemoteObj.t :=
  {| RemoteObj.cleanName := cleanName;
     RemoteObj.basePath := basePath;
     RemoteObj.machine := "dockdev-" +:+ cleanName;
     RemoteObj.ipAddress := EmptyString;
     RemoteObj.containers := [];
     RemoteObj.counter := 0;
     RemoteObj.status := 0 |}.

Definition setRemoteServerParams (container : Container.t)
    (remoteObj : RemoteObj.t) : Config.t :=
  {| Config.image := Container.image container;
     Config.name := Container.name container;
     Config.Env := Some ["VIRTUAL_HOST=" +:+ RemoteObj.ipAddress remoteObj];
     Config.HostConfig :=
       {| Config.NetworkMode := Some (Container.cleanName container);
          Config.Binds := None;
          Config.PortBindings := None |};
     Config.ExposedPorts := None |}.

Definition setRemoteDbs (container : Container.t) : Config.t :=
  {| Config.image := Container.image container;
     Config.name := Container.name container;
     Config.Env := None;
     Config.HostConfig :=
       {| Config.NetworkMode := Some (Container.cleanName container);
          Config.Binds := None;
          Config.PortBindings := None |};
     Config.ExposedPorts := None |}.

Definition setProxyParams (container : Container.t) : Config.t :=
  {| Config.image := Container.image container;
     Config.name := Container.name container;
     Config.Env := None;
     Config.HostConfig :=
       {| Config.NetworkMode := None;
          Config.Binds := Some ["/var/run/docker.sock:/tmp/docker.sock:ro"];
          Config.PortBindings :=
            Some {[ "80/tcp" := [ {| Config.HostPort := "80" |} ] ]} |};
     Config.ExposedPorts := Some {[ "80/tcp" := () ]} |}.

Definition getRemoteConfig (container : Container.t)
    (remoteObj : RemoteObj.t) : Config.t :=
  if Container.server container then setRemoteServerParams container remoteObj
  else if Container.nginx container then setProxyParams container
  else setRemoteDbs container.

(** [Number.isSafeInteger]: the integers between [-(2^53 - 1)] and
    [2^53 - 1].  Each of them is a Number, and for each of them the
    template literal [`${n}`] is the decimal numeral of [n].  Outside
    this range JavaScript rounds a Number and from [1e21] on prints it
    with an exponent, so statements that involve the printed counter
    are made for safe integers. *)
Definition isSafeInteger (n : Z) : bool :=
  ((- (2 ^ 53 - 1) <=? n) && (n <=? 2 ^ 53 - 1))%Z.

(** [`${n}`] for a safe integer [n] is its decimal numeral. *)
Definition remoteServerObj (remoteObj : RemoteObj.t) : Container.t :=
  {| Container.cleanName := RemoteObj.cleanName remoteObj;
     Container.image :=
       "dockdev/" +:+ RemoteObj.cleanName remoteObj +:+ ":"
         +:+ pretty (RemoteObj.counter remoteObj);
     Container.dockerId := EmptyString;
     Container.name := "server" +:+ pretty (RemoteObj.counter remoteObj);
     Container.server := true;
     Container.nginx := false;
     Container.status := "pending";
     Container.machine := RemoteObj.machine remoteObj |}.


(** ** Errors and promise outcomes *)

(** The constants of [appLevel/errorMsgs] are the domain errors; every
    other value a collaborator rejects with or a statement throws is a
    low-level error. *)
Inductive Err : Type :=
| FAILED_TO_CREATE_DOCKERFILE
| FAILED_TO_SYNC_TO_REMOTE
| FAILED_TO_BUILD_SERVER_IMAGE
| NO_DOTOKEN
| TypeError (msg : string)
| LowLevel (msg : string).

(** What a promise settles to, or how a call ends. *)
Inductive Outcome (A : Type) : Type :=
| Resolved (a : A)
| Rejected (e : Err).
Arguments Resolved {A} a.
Arguments Rejected {A} e.

(** Application configuration file: [DOToken] may be absent. *)
Module AppConfig.
Record t : Type := mk { DOToken : option string }.
End AppConfig.

(** Response of the container runtime's create call. *)
Module DockCont.
Record t : Type := mk { Id : string }.
End DockCont.

(** ** The imported modules

    [rsync], [defaultConfig] and [containerMgmt] are imported by
    [deploy.js]; their synchronous functions are taken as an interface.
    Any of the functions may throw. *)
Class Collaborators : Type := {
  InspectOut : Type;
  MachineInfo : Type;
  RsyncArgs : Type;
  ProjObj : Type;
  IPAddress : MachineInfo -> string;
  cleanFilePath : string -> Outcome string;
  selectSSHandIP : InspectOut -> Outcome MachineInfo;
  createRemoteRsyncArgs :
    string -> string -> MachineInfo -> bool -> Outcome RsyncArgs;
  remoteDest : string;
  configPath : string;
  containerObj : string -> ImageObj.t -> Container.t;
}.

(** ** String literals of the build descriptor *)

(** The line feed and the double quote of the string literals. *)
Definition nl : string := String (Ascii.ascii_of_nat 10) EmptyString.
Definition dq : string := String (Ascii.ascii_of_nat 34) EmptyString.

(** The text assembled in [createDockerfile]. *)
Definition dockerFileOf (serverImage : string) : string :=
  "From " +:+ serverImage +:+ nl +:+
  "COPY . /app" +:+ nl +:+
  "WORKDIR /app" +:+ nl +:+
  "RUN [" +:+ dq +:+ "npm" +:+ dq +:+ ", " +:+ dq +:+ "install" +:+ dq
    +:+ ", " +:+ dq +:+ "--production" +:+ dq +:+ "]" +:+ nl +:+
  "EXPOSE 3000" +:+ nl +:+
  "CMD [" +:+ dq +:+ "npm" +:+ dq +:+ ", " +:+ dq +:+ "start" +:+ dq +:+ "]".

(** ** Object store

    [addNginxContainer] builds an object, assigns to two of its
    properties and puts it into a new array next to the entries of an
    existing one.  Arrays hold references, so arrays and container
    objects live in a store and are named by addresses. *)
Module Heap.
Record t : Type := mk {
  objects : gmap positive Container.t;
  arrays : gmap positive (list positive);
}.

(** An object literal evaluates to a fresh object. *)
Definition alloc_object (v : Container.t) (h : t) : positive * t :=
  let l := fresh (dom (objects h)) in
  (l, mk (<[l := v]> (objects h)) (arrays h)).

(** An array literal evaluates to a fresh array. *)
Definition alloc_array (v : list positive) (h : t) : positive * t :=
  let l := fresh (dom (arrays h)) in
  (l, mk (objects h) (<[l := v]> (arrays h))).

(** [o.p = v] on the object at [l]. *)
Definition assign (l : positive) (f : Container.t -> Container.t) (h : t)
    : t :=
  mk (alter f l (objects h)) (arrays h).

(** The entries of the array at [a], read through the store. *)
Definition read_array (h : t) (a : positive) : option (list Container.t) :=
  elems ← arrays h !! a;
  mapM (fun l => objects h !! l) elems.
End Heap.

(** ** Coroutines over external calls *)

Section Coroutines.
Context `{Collaborators}.

(** The asynchronous calls of [dockerAPI/machine], [dockerAPI/docker],
    [utils], [rsync], [appConfig], [projConfig] and [containerMgmt]: each
    returns a promise that the coroutine yields on. *)
Inductive Cmd : Type :=
| createMachine (args : list string)
| inspect (machineName : string)
| ssh (machineName command : string)
| writeFile (path data : string)
| containerCreate (machineName : string) (config : Config.t)
| rsync (args : RsyncArgs)
| readConfig (path : string)
| loadProject (path : string)
| writeProj (projObj : ProjObj)
| createRemoteNetwork (remoteObj : RemoteObj.t).

(** The value a call's promise resolves to. *)
Definition resp (c : Cmd) : Type :=
  match c with
  | inspect _ => InspectOut
  | ssh _ _ => string
  | containerCreate _ _ => DockCont.t
  | readConfig _ => AppConfig.t
  | loadProject _ => ProjObj
  | createMachine _ | writeFile _ _ | rsync _ | writeProj _
  | createRemoteNetwork _ => unit
  end.

(** Calls that reach the remote machine or the provisioning backend; the
    others only touch local files. *)
Definition is_remote (c : Cmd) : bool :=
  match c with
  | createMachine _ | inspect _ | ssh _ _ | containerCreate _ _ | rsync _
  | createRemoteNetwork _ => true
  | writeFile _ _ | readConfig _ | loadProject _ | writeProj _ => false
  end.

Definition is_provisioning (c : Cmd) : bool :=
  match c with
  | createMachine _ => true
  | _ => false
  end.

(** A coroutine body: it returns, throws, or suspends on a call and is
    resumed with the promise's outcome. *)
Inductive Prog (A : Type) : Type :=
| Ret (a : A)
| Throw (e : Err)
| Suspend (c : Cmd) (k : Outcome (resp c) -> Prog A).
Arguments Ret {A} a.
Arguments Throw {A} e.
Arguments Suspend {A} c k.

Fixpoint bind {A B : Type} (p : Prog A) (f : A -> Prog B) : Prog B :=
  match p with
  | Ret a => f a
  | Throw e => Throw e
  | Suspend c k => Suspend c (fun r => bind (k r) f)
  end.

#[export] Instance Prog_ret : MRet Prog := fun A a => Ret a.
#[export] Instance Prog_bind : MBind Prog := fun A B f p => bind p f.

(** [yield c]: a rejected promise is thrown at the point of the yield. *)
Definition yield (c : Cmd) : Prog (resp c) :=
  Suspend c (fun r =>
    match r with
    | Resolved v => Ret v
    | Rejected e => Throw e
    end).

(** A synchronous call that may throw. *)
Definition call {A : Type} (r : Outcome A) : Prog A :=
  match r with
  | Resolved v => Ret v
  | Rejected e => Throw e
  end.

(** [try { p } catch (e) { h e }] *)
Fixpoint try_catch {A : Type} (p : Prog A) (h : Err -> Prog A) : Prog A :=
  match p with
  | Ret a => Ret a
  | Throw e => h e
  | Suspend c k => Suspend c (fun r => try_catch (k r) h)
  end.

(** *** Running a coroutine against the outside world *)

Section Run.
Variable World : Type.
Variable handle : forall c : Cmd, World -> Outcome (resp c) * World.

(** The promise returned by a coroutine settles to the first component;
    the third is the sequence of external calls made, in order. *)
Fixpoint run {A : Type} (p : Prog A) (w : World)
    : Outcome A * World * list Cmd :=
  match p with
  | Ret a => (Resolved a, w, [])
  | Throw e => (Rejected e, w, [])
  | Suspend c k =>
      let '(r, w1) := handle c w in
      let '(o, w2, tr) := run (k r) w1 in
      (o, w2, c :: tr)
  end.

Definition outcome {A : Type} (p : Prog A) (w : World) : Outcome A :=
  (run p w).1.1.

Definition calls {A : Type} (p : Prog A) (w : World) : list Cmd :=
  (run p w).2.
End Run.

(** ** The deployment steps *)

Definition createDroplet (dropletName token : string) (args : list string)
    : Cmd :=
  createMachine
    (["--driver digitalocean"; "--digitalocean-access-token=" +:+ token]
       ++ args ++ [dropletName]).

Definition createDockerfile (containers : list Container.t)
    (basePath : string) : Prog bool :=
  try_catch
    (dockerFile ←
       match List.filter Container.server containers !! 0%nat with
       | Some server => Ret (dockerFileOf (Container.image server))
       | None => Throw (TypeError "Cannot read property 'image' of undefined")
       end;
     yield (writeFile (basePath +:+ "/Dockerfile") dockerFile);;
     Ret true)
    (fun _ => Throw FAILED_TO_CREATE_DOCKERFILE).

Definition syncFilesToRemote (remoteObj : RemoteObj.t) (local : bool)
    : Prog RemoteObj.t :=
  cleanPath ← call (cleanFilePath (RemoteObj.basePath remoteObj));
  let dest := if local then "/home/docker" else remoteDest in
  try_catch
    (inspected ← yield (inspect (RemoteObj.machine remoteObj));
     machineInfo ← call (selectSSHandIP inspected);
     remoteRsyncArgs ←
       call (createRemoteRsyncArgs (cleanPath +:+ "/*") dest machineInfo
               local);
     yield (rsync remoteRsyncArgs);;
     Ret (RemoteObj.set_ipAddress (IPAddress machineInfo) remoteObj))
    (fun _ => Throw FAILED_TO_SYNC_TO_REMOTE).

(** The counter is printed as in [remoteServerObj]: the command is the
    one the code sends for a counter that is a safe integer. *)
Definition buildServerImage (remoteObj : RemoteObj.t) : Prog bool :=
  yield (ssh (RemoteObj.machine remoteObj)
           ("docker build -t dockdev/" +:+ RemoteObj.cleanName remoteObj
              +:+ ":" +:+ pretty (RemoteObj.counter remoteObj) +:+ " ."));;
  Ret true.

(** [!DOToken]: an absent property and the empty string are falsy. *)
Definition falsy (v : option string) : bool :=
  match v with
  | None => true
  | Some s => bool_decide (s = EmptyString)
  end.

Definition initRemote (cleanName path : string) : Prog RemoteObj.t :=
  readConfigFile ← yield (readConfig configPath);
  let DOToken := AppConfig.DOToken readConfigFile in
  if falsy DOToken then Throw NO_DOTOKEN
  else
    let remoteObj := createRemoteObj cleanName path in
    projObj ← yield (loadProject path);
    yield (createDroplet (RemoteObj.machine remoteObj)
             (default EmptyString DOToken) []);;
    yield (writeProj projObj);;
    yield (createRemoteNetwork remoteObj);;
    Ret remoteObj.

(** [containers] is the address of the array passed in; the result is the
    address of the array returned.  Spreading a value that is not an
    array throws. *)
Definition addNginxContainer (containers : positive)
    (remoteObj : RemoteObj.t) (h : Heap.t) : Outcome positive * Heap.t :=
  let '(nginx, h) :=
    Heap.alloc_object
      (containerObj (RemoteObj.cleanName remoteObj)
         {| ImageObj.name := "jwilder/nginx-proxy";
            ImageObj.server := false |}) h in
  let h := Heap.assign nginx (Container.set_nginx true) h in
  let h := Heap.assign nginx (Container.set_name "proxy") h in
  match Heap.arrays h !! containers with
  | Some elems =>
      let '(result, h) := Heap.alloc_array (elems ++ [nginx]) h in
      (Resolved result, h)
  | None => (Rejected (TypeError "containers is not iterable"), h)
  end.

Definition createRemoteContainer (container : Container.t)
    (remoteObj : RemoteObj.t) : Prog Container.t :=
  let config := getRemoteConfig container remoteObj in
  dockCont ← yield (containerCreate (RemoteObj.machine remoteObj) config);
  Ret (Container.set_machine (RemoteObj.machine remoteObj)
         (Container.set_dockerId (DockCont.Id dockCont) container)).

(** *** Failures inside the [try] block of [syncFilesToRemote]

    With the normalised path [cleanPath] at hand, a failure arises when
    [inspect] rejects, when the extraction of the SSH target and the IP
    address throws, when the construction of the rsync arguments throws,
    or when [rsync] rejects. *)
Section SyncFailures.
Variable World : Type.
Variable handle : forall c : Cmd, World -> Outcome (resp c) * World.


End SyncFailures.
End Coroutines.

(** ** The Dockerfile template, line by line

    The build descriptor as the external-interface description lists it:
    six lines separated by line feeds, the first naming the server
    image. *)
Definition dockerfile_lines (serverImage : string) : list string :=
  [ "From " +:+ serverImage;
    "COPY . /app";
    "WORKDIR /app";
    "RUN [" +:+ dq +:+ "npm" +:+ dq +:+ ", " +:+ dq +:+ "install" +:+ dq
      +:+ ", " +:+ dq +:+ "--production" +:+ dq +:+ "]";
    "EXPOSE 3000";
    "CMD [" +:+ dq +:+ "npm" +:+ dq +:+ ", " +:+ dq +:+ "start" +:+ dq
      +:+ "]" ].

Definition dockerfile_template (serverImage : string) : string :=
  String.concat nl (dockerfile_lines serverImage).

(** ** A concrete outside world

    Collaborators and a world simple enough to evaluate the steps on. *)
Module Demo.

(** Modelled from the spec: [containerObj] of [containerMgmt] is imported
    by [deploy.js] and is not among the sources.  The data model gives a
    container entry the fields [cleanName], [image], [dockerId] (empty
    until creation succeeds), [name], [server], [status] (initially
    pending) and [machine] (set at creation time); the image description
    carries the source image under [name] and the [server] flag. *)
Definition containerObj_model (cleanName : string) (imageObj : ImageObj.t)
    : Container.t :=
  {| Container.cleanName := cleanName;
     Container.image := ImageObj.name imageObj;
     Container.dockerId := EmptyString;
     Container.name := ImageObj.name imageObj;
     Container.server := ImageObj.server imageObj;
     Container.nginx := false;
     Container.status := "pending";
     Container.machine := EmptyString |}.

(** Machine information is the pair of an SSH target and an IP address;
    [inspect] answers with the address.  The path normalisation is left
    open. *)
Definition collab_with (normalise : string -> Outcome string)
    : Collaborators :=
  {| InspectOut := string;
     MachineInfo := string * string;
     RsyncArgs := list string;
     ProjObj := list Container.t;
     IPAddress := snd;
     cleanFilePath := normalise;
     selectSSHandIP := fun out => Resolved ("root@" +:+ out, out);
     createRemoteRsyncArgs := fun src dest info local =>
       Resolved [src; info.1 +:+ ":" +:+ dest];
     remoteDest := "/root";
     configPath := "/home/user/.dockdevconfig";
     containerObj := containerObj_model |}.

(** The collaborators with a normalisation that returns every path as it
    is. *)
Definition collab : Collaborators := collab_with Resolved.

(** The world: the local files, the token stored in the configuration
    file, whether the project directory can be written and whether the
    machine answers. *)
Record world : Type := mkWorld {
  files : gmap string string;
  token : option string;
  writable : bool;
  reachable : bool;
}.

Definition handle (normalise : string -> Outcome string)
    (c : @Cmd (collab_with normalise)) (w : world)
    : Outcome (resp c) * world :=
  match c as c0 return Outcome (resp c0) * world with
  | createMachine _ => (Resolved (), w)
  | inspect _ =>
      if reachable w then (Resolved "203.0.113.7", w)
      else (Rejected (LowLevel "machine does not exist"), w)
  | ssh _ _ => (Resolved EmptyString, w)
  | writeFile path data =>
      if writable w
      then (Resolved (),
            mkWorld (<[path := data]> (files w)) (token w) (writable w)
                    (reachable w))
      else (Rejected (LowLevel "EACCES"), w)
  | containerCreate _ _ => (Resolved {| DockCont.Id := "4f1e9a" |}, w)
  | rsync _ => (Resolved (), w)
  | readConfig _ => (Resolved {| AppConfig.DOToken := token w |}, w)
  | loadProject _ => (Resolved [], w)
  | writeProj _ => (Resolved (), w)
  | createRemoteNetwork _ => (Resolved (), w)
  end.

(** A project, two of its containers and a few worlds. *)
Definition blog : RemoteObj.t := createRemoteObj "blog" "/home/user/blog".

Definition shop : RemoteObj.t := createRemoteObj "shop" "/home/user/shop".

Definition node_server : Container.t :=
  {| Container.cleanName := "blog";
     Container.image := "node:8";
     Container.dockerId := EmptyString;
     Container.name := "server";
     Container.server := true;
     Container.nginx := false;
     Container.status := "pending";
     Container.machine := EmptyString |}.

Definition mongo : Container.t :=
  containerObj_model "blog"
    {| ImageObj.name := "mongo"; ImageObj.server := false |}.

Definition w_ready : world :=
  {| files := ∅; token := Some "dop_v1_0a1b"; writable := true;
     reachable := true |}.

Definition w_readonly : world :=
  {| files := ∅; token := Some "dop_v1_0a1b"; writable := false;
     reachable := true |}.

Definition w_notoken : world :=
  {| files := ∅; token := None; writable := true; reachable := true |}.

Definition w_down : world :=
  {| files := ∅; token := Some "dop_v1_0a1b"; writable := true;
     reachable := false |}.

(** The proxy entry, and the record of a project named [demo] after two
    builds. *)
Definition proxy : Container.t :=
  Container.set_name "proxy"
    (Container.set_nginx true
       (containerObj_model "blog"
          {| ImageObj.name := "jwilder/nginx-proxy";
             ImageObj.server := false |})).

Definition demo2 : RemoteObj.t :=
  {| RemoteObj.cleanName := "demo";
     RemoteObj.basePath := "/home/user/demo";
     RemoteObj.machine := "dockdev-demo";
     RemoteObj.ipAddress := "203.0.113.7";
     RemoteObj.containers := [];
     RemoteObj.counter := 2;
     RemoteObj.status := 0 |}.

(** A store holding the array [[node_server, mongo]] at address 1. *)
Definition h_two : Heap.t :=
  {| Heap.objects := {[ 1%positive := node_server; 2%positive := mongo ]};
     Heap.arrays := {[ 1%positive := [1%positive; 2%positive] ]} |}.
End Demo.

(** ** Worlds in which chosen calls are rejected

    The collaborators of [Demo], with every call selected by [fails]
    rejected with a low-level error and the world left as it is. *)
Module Faulty.
Definition handle (fails : @Cmd Demo.collab -> bool) (c : @Cmd Demo.collab)
    (w : Demo.world) : Outcome (resp c) * Demo.world :=
  if fails c then (Rejected (LowLevel "connection refused"), w)
  else Demo.handle Resolved c w.

Definition is_createMachine (c : @Cmd Demo.collab) : bool :=
  match c with
  | createMachine _ => true
  | _ => false
  end.

Definition is_loadProject (c : @Cmd Demo.collab) : bool :=
  match c with
  | loadProject _ => true
  | _ => false
  end.

Definition is_ssh (c : @Cmd Demo.collab) : bool :=
  match c with
  | ssh _ _ => true
  | _ => false
  end.

Definition is_containerCreate (c : @Cmd Demo.collab) : bool :=
  match c with
  | containerCreate _ _ => true
  | _ => false
  end.

(** A configuration file whose token is the empty string. *)
Definition w_emptytoken : Demo.world :=
  {| Demo.files := ∅; Demo.token := Some EmptyString;
     Demo.writable := true; Demo.reachable := true |}.

(** A container marked both as server and as proxy. *)
Definition server_and_proxy : Container.t :=
  Container.set_nginx true Demo.node_server.
End Faulty.

(** * Properties *)

(** ** The configuration generator *)

Lemma getRemoteConfig_server (c : Container.t) (r : RemoteObj.t) :
  Container.server c = true ->
  getRemoteConfig c r = setRemoteServerParams c r.
Proof. intros Hs. unfold getRemoteConfig. by rewrite Hs. Qed.

Lemma getRemoteConfig_proxy (c : Container.t) (r : RemoteObj.t) :
  Container.server c = false ->
  Container.nginx c = true ->
  getRemoteConfig c r = setProxyParams c.
Proof. intros Hs Hn. unfold getRemoteConfig. by rewrite Hs, Hn. Qed.

Lemma getRemoteConfig_db (c : Container.t) (r : RemoteObj.t) :
  Container.server c = false ->
  Container.nginx c = false ->
  getRemoteConfig c r = setRemoteDbs c.
Proof. intros Hs Hn. unfold getRemoteConfig. by rewrite Hs, Hn. Qed.

(** C1, as the code has it: for a server container the generated
    configuration joins the network named by the container's own
    [cleanName] (which is the record's whenever the two agree), and its
    [Env] is the one-entry list holding [VIRTUAL_HOST=] followed by the
    record's IP address. *)
Theorem server_config_network_and_env (c : Container.t) (r : RemoteObj.t) :
  Container.server c = true ->
  Config.NetworkMode (Config.HostConfig (getRemoteConfig c r))
    = Some (Container.cleanName c)
  /\ Config.Env (getRemoteConfig c r)
    = Some ["VIRTUAL_HOST=" +:+ RemoteObj.ipAddress r]
  /\ (Container.cleanName c = RemoteObj.cleanName r ->
      Config.NetworkMode (Config.HostConfig (getRemoteConfig c r))
        = Some (RemoteObj.cleanName r)).
Proof.
  intros Hs. rewrite (getRemoteConfig_server c r Hs). simpl.
  split; [reflexivity | split; [reflexivity | congruence]].
Qed.

(** C1 at the server entry of the blog project. *)
Lemma server_config_network_and_env_witness :
  Container.server Demo.node_server = true
  /\ Config.NetworkMode
       (Config.HostConfig (getRemoteConfig Demo.node_server Demo.blog))
     = Some "blog"
  /\ Config.Env (getRemoteConfig Demo.node_server Demo.blog)
     = Some ["VIRTUAL_HOST="].
Proof.
  split; [reflexivity |].
  pose proof (server_config_network_and_env Demo.node_server Demo.blog
                eq_refl) as (Hn & He & _).
  split; [exact Hn | exact He].
Defined.

(** C1 fails as stated: a server container whose [cleanName] is [blog],
    configured against the record of the [shop] project, joins the
    network [blog], not [shop]. *)
Lemma server_config_network_is_not_the_record_name :
  Container.server Demo.node_server = true
  /\ Config.NetworkMode
       (Config.HostConfig (getRemoteConfig Demo.node_server Demo.shop))
     = Some "blog"
  /\ Config.NetworkMode
       (Config.HostConfig (getRemoteConfig Demo.node_server Demo.shop))
     <> Some (RemoteObj.cleanName Demo.shop).
Proof. split; [reflexivity | split; [reflexivity | discriminate]]. Qed.

(** C8: for a proxy container (not also marked as server) the generated
    configuration declares the exposed port [80/tcp], binds host port
    [80] to [80/tcp], and bind-mounts the control socket
    [/var/run/docker.sock] at [/tmp/docker.sock], read-only. *)
Theorem proxy_config_ports_and_socket (c : Container.t) (r : RemoteObj.t) :
  Container.nginx c = true ->
  Container.server c = false ->
  Config.ExposedPorts (getRemoteConfig c r) = Some {[ "80/tcp" := () ]}
  /\ (exposed ← Config.ExposedPorts (getRemoteConfig c r);
      exposed !! "80/tcp") = Some ()
  /\ (bindings ←
        Config.PortBindings (Config.HostConfig (getRemoteConfig c r));
      bindings !! "80/tcp") = Some [ {| Config.HostPort := "80" |} ]
  /\ Config.Binds (Config.HostConfig (getRemoteConfig c r))
     = Some ["/var/run/docker.sock" +:+ ":" +:+ "/tmp/docker.sock"
               +:+ ":" +:+ "ro"].
Proof.
  intros Hn Hs. rewrite (getRemoteConfig_proxy c r Hs Hn). simpl.
  repeat split; apply lookup_singleton_eq.
Qed.

(** C8 at the proxy entry of the blog project. *)
Lemma proxy_config_ports_and_socket_witness :
  Container.nginx Demo.proxy = true
  /\ Container.server Demo.proxy = false
  /\ Config.Binds (Config.HostConfig (getRemoteConfig Demo.proxy Demo.blog))
     = Some ["/var/run/docker.sock:/tmp/docker.sock:ro"].
Proof.
  split; [reflexivity | split; [reflexivity |]].
  exact (proj2 (proj2 (proj2
    (proxy_config_ports_and_socket Demo.proxy Demo.blog eq_refl eq_refl)))).
Defined.

(** C9: for a record with [counter = 2] and [cleanName = "demo"] the
    server entry has image [dockdev/demo:2], name [server2],
    [server = true], status [pending] and the record's machine. *)
Theorem remoteServerObj_demo_2 (r : RemoteObj.t) :
  RemoteObj.counter r = 2%Z ->
  RemoteObj.cleanName r = "demo" ->
  Container.image (remoteServerObj r) = "dockdev/demo:2"
  /\ Container.name (remoteServerObj r) = "server2"
  /\ Container.server (remoteServerObj r) = true
  /\ Container.status (remoteServerObj r) = "pending"
  /\ Container.machine (remoteServerObj r) = RemoteObj.machine r.
Proof.
  intros Hc Hn. unfold remoteServerObj. simpl. rewrite Hc, Hn.
  repeat split; reflexivity.
Qed.

(** C9 at the record of a project named [demo] after two builds. *)
Lemma remoteServerObj_demo_2_witness :
  RemoteObj.counter Demo.demo2 = 2%Z
  /\ RemoteObj.cleanName Demo.demo2 = "demo"
  /\ Container.image (remoteServerObj Demo.demo2) = "dockdev/demo:2"
  /\ Container.name (remoteServerObj Demo.demo2) = "server2"
  /\ Container.server (remoteServerObj Demo.demo2) = true
  /\ Container.status (remoteServerObj Demo.demo2) = "pending"
  /\ Container.machine (remoteServerObj Demo.demo2) = "dockdev-demo".
Proof.
  split; [reflexivity | split; [reflexivity |]].
  exact (remoteServerObj_demo_2 Demo.demo2 eq_refl eq_refl).
Defined.

(** ** The coroutines *)

Section Properties.
Context `{Collaborators}.
Variable World : Type.
Variable handle : forall c : Cmd, World -> Outcome (resp c) * World.

(** *** Selecting the server container *)

Lemma filter_server_none (containers : list Container.t) :
  (forall c, c ∈ containers -> Container.server c = false) ->
  List.filter Container.server containers = [].
Proof.
  induction containers as [|c cs IH]; intros Hall; [reflexivity |].
  simpl. rewrite (Hall c) by apply list_elem_of_here.
  apply IH. intros c' Hin. apply Hall. by apply list_elem_of_further.
Qed.

Lemma filter_server_first (pre post : list Container.t) (s : Container.t) :
  (forall c, c ∈ pre -> Container.server c = false) ->
  Container.server s = true ->
  List.filter Container.server (pre ++ s :: post) !! 0%nat = Some s.
Proof.
  induction pre as [|c cs IH]; intros Hpre Hs; simpl.
  - by rewrite Hs.
  - rewrite (Hpre c) by apply list_elem_of_here.
    apply IH; [| exact Hs].
    intros c' Hin. apply Hpre. by apply list_elem_of_further.
Qed.

Lemma first_server_exists (containers : list Container.t) :
  (exists c, c ∈ containers /\ Container.server c = true) ->
  exists (pre : list Container.t) (s : Container.t)
         (post : list Container.t),
    containers = (pre ++ s :: post)%list
    /\ (forall c, c ∈ pre -> Container.server c = false)
    /\ Container.server s = true.
Proof.
  induction containers as [|c cs IH]; intros (x & Hin & Hx).
  - by apply elem_of_nil in Hin.
  - destruct (Container.server c) eqn:Hc.
    + exists [], c, cs. split; [reflexivity |]. split; [| exact Hc].
      intros c' Hc'. by apply elem_of_nil in Hc'.
    + apply elem_of_cons in Hin as [-> | Hin]; [congruence |].
      destruct IH as (pre & s & post & -> & Hpre & Hs); [by exists x |].
      exists (c :: pre), s, post. split; [reflexivity |].
      split; [| exact Hs].
      intros c' [-> | Hc']%elem_of_cons; [exact Hc | by apply Hpre].
Qed.

(** The text assembled by the code is the template, line by line. *)
Lemma dockerFileOf_template (serverImage : string) :
  dockerFileOf serverImage = dockerfile_template serverImage.
Proof.
  unfold dockerFileOf, dockerfile_template, dockerfile_lines.
  reflexivity.
Qed.

(** *** [createDockerfile] *)

(** C5, as the code has it: when the list holds a server container,
    [createDockerfile] takes the first one in list order, makes exactly
    one external call, writing to [basePath/Dockerfile] the template with
    [From] followed by that container's image, and resolves to [true]
    when that write succeeds; when the write is rejected it fails with
    the Dockerfile-creation error. *)
Theorem createDockerfile_writes_template (containers : list Container.t)
    (basePath : string) (w : World) :
  (exists c, c ∈ containers /\ Container.server c = true) ->
  exists (pre : list Container.t) (server : Container.t)
         (post : list Container.t),
    containers = (pre ++ server :: post)%list
    /\ (forall c, c ∈ pre -> Container.server c = false)
    /\ Container.server server = true
    /\ dockerFileOf (Container.image server)
       = dockerfile_template (Container.image server)
    /\ run World handle (createDockerfile containers basePath) w
       = (match (handle (writeFile (basePath +:+ "/Dockerfile")
                          (dockerFileOf (Container.image server))) w).1 with
          | Resolved _ => Resolved true
          | Rejected _ => Rejected FAILED_TO_CREATE_DOCKERFILE
          end,
          (handle (writeFile (basePath +:+ "/Dockerfile")
                     (dockerFileOf (Container.image server))) w).2,
          [writeFile (basePath +:+ "/Dockerfile")
             (dockerFileOf (Container.image server))]).
Proof.
  intros Hex.
  destruct (first_server_exists containers Hex)
    as (pre & s & post & -> & Hpre & Hs).
  exists pre, s, post.
  split; [reflexivity |]. split; [exact Hpre |]. split; [exact Hs |].
  split; [apply dockerFileOf_template |].
  unfold createDockerfile.
  rewrite (filter_server_first pre post s Hpre Hs). simpl.
  destruct (handle _ w) as [[v | e] w1]; reflexivity.
Qed.

(** C10: when no container of the list is a server, [createDockerfile]
    fails with the Dockerfile-creation error without making any external
    call, so no file is written and the world is as before. *)
Theorem createDockerfile_without_server (containers : list Container.t)
    (basePath : string) (w : World) :
  (forall c, c ∈ containers -> Container.server c = false) ->
  run World handle (createDockerfile containers basePath) w
    = (Rejected FAILED_TO_CREATE_DOCKERFILE, w, []).
Proof.
  intros Hnone. unfold createDockerfile.
  rewrite (filter_server_none containers Hnone). reflexivity.
Qed.

(** *** [syncFilesToRemote] *)

(** A failure of the path normalisation happens before the [try] block
    and reaches the caller as thrown. *)
Lemma syncFilesToRemote_path_failure (remoteObj : RemoteObj.t)
    (local : bool) (e : Err) (w : World) :
  cleanFilePath (RemoteObj.basePath remoteObj) = Rejected e ->
  run World handle (syncFilesToRemote remoteObj local) w
    = (Rejected e, w, []).
Proof. intros Hp. unfold syncFilesToRemote. rewrite Hp. reflexivity. Qed.



(** C3: when every step succeeds, [syncFilesToRemote] resolves to a
    record whose [ipAddress] is the address extracted from the inspect
    metadata and whose other fields are those of the input; the calls
    made are the inspection and the synchronisation. *)
Theorem syncFilesToRemote_sets_ipAddress (remoteObj : RemoteObj.t)
    (local : bool) (cleanPath : string) (out : InspectOut)
    (info : MachineInfo) (args : RsyncArgs) (w w1 w2 : World) :
  cleanFilePath (RemoteObj.basePath remoteObj) = Resolved cleanPath ->
  handle (inspect (RemoteObj.machine remoteObj)) w = (Resolved out, w1) ->
  selectSSHandIP out = Resolved info ->
  createRemoteRsyncArgs (cleanPath +:+ "/*")
    (if local then "/home/docker" else remoteDest) info local
    = Resolved args ->
  handle (rsync args) w1 = (Resolved (), w2) ->
  exists r : RemoteObj.t,
    run World handle (syncFilesToRemote remoteObj local) w
      = (Resolved r, w2,
         [inspect (RemoteObj.machine remoteObj); rsync args])
    /\ RemoteObj.ipAddress r = IPAddress info
    /\ RemoteObj.cleanName r = RemoteObj.cleanName remoteObj
    /\ RemoteObj.basePath r = RemoteObj.basePath remoteObj
    /\ RemoteObj.machine r = RemoteObj.machine remoteObj
    /\ RemoteObj.containers r = RemoteObj.containers remoteObj
    /\ RemoteObj.counter r = RemoteObj.counter remoteObj
    /\ RemoteObj.status r = RemoteObj.status remoteObj.
Proof.
  intros Hp Hi Hs Ha Hr.
  exists (RemoteObj.set_ipAddress (IPAddress info) remoteObj).
  split; [| repeat split].
  unfold syncFilesToRemote. rewrite Hp. simpl. rewrite Hi. simpl.
  rewrite Hs. simpl. rewrite Ha. simpl. rewrite Hr. reflexivity.
Qed.

(** *** [initRemote] *)

Lemma initRemote_falsy_token (cleanName path : string) (w w1 : World)
    (readConfigFile : AppConfig.t) :
  handle (readConfig configPath) w = (Resolved readConfigFile, w1) ->
  falsy (AppConfig.DOToken readConfigFile) = true ->
  run World handle (initRemote cleanName path) w
    = (Rejected NO_DOTOKEN, w1, [readConfig configPath]).
Proof.
  intros Hr Hf. unfold initRemote. simpl. rewrite Hr. simpl.
  rewrite Hf. reflexivity.
Qed.

(** C4: when the configuration file that was read holds no [DOToken],
    [initRemote] fails with the missing-token error; the only call made
    is the reading of the configuration file, so there is no provisioning
    call and no call to anything remote. *)
Theorem initRemote_without_token (cleanName path : string) (w w1 : World)
    (readConfigFile : AppConfig.t) :
  handle (readConfig configPath) w = (Resolved readConfigFile, w1) ->
  AppConfig.DOToken readConfigFile = None ->
  run World handle (initRemote cleanName path) w
    = (Rejected NO_DOTOKEN, w1, [readConfig configPath])
  /\ (forall c, c ∈ calls World handle (initRemote cleanName path) w ->
        is_provisioning c = false /\ is_remote c = false).
Proof.
  intros Hr Hnone.
  assert (run World handle (initRemote cleanName path) w
          = (Rejected NO_DOTOKEN, w1, [readConfig configPath])) as Hrun.
  { apply (initRemote_falsy_token _ _ _ _ readConfigFile Hr).
    by rewrite Hnone. }
  split; [exact Hrun |].
  intros c. unfold calls. rewrite Hrun. simpl.
  intros ->%list_elem_of_singleton. by split.
Qed.

(** *** [createRemoteContainer] *)

(** C6: when the create call of the container runtime succeeds,
    [createRemoteContainer] resolves to an entry whose [dockerId] is the
    [Id] of the response, whose [machine] is the record's machine, and
    whose other fields are those of the input container; the one call
    made is the create call on the record's machine with the generated
    configuration. *)
Theorem createRemoteContainer_sets_id_and_machine (container : Container.t)
    (remoteObj : RemoteObj.t) (dockCont : DockCont.t) (w w1 : World) :
  handle (containerCreate (RemoteObj.machine remoteObj)
            (getRemoteConfig container remoteObj)) w
    = (Resolved dockCont, w1) ->
  exists entry : Container.t,
    run World handle (createRemoteContainer container remoteObj) w
      = (Resolved entry, w1,
         [containerCreate (RemoteObj.machine remoteObj)
            (getRemoteConfig container remoteObj)])
    /\ Container.dockerId entry = DockCont.Id dockCont
    /\ Container.machine entry = RemoteObj.machine remoteObj
    /\ Container.cleanName entry = Container.cleanName container
    /\ Container.image entry = Container.image container
    /\ Container.name entry = Container.name container
    /\ Container.server entry = Container.server container
    /\ Container.nginx entry = Container.nginx container
    /\ Container.status entry = Container.status container.
Proof.
  intros Hc.
  exists (Container.set_machine (RemoteObj.machine remoteObj)
            (Container.set_dockerId (DockCont.Id dockCont) container)).
  split; [| repeat split].
  unfold createRemoteContainer. simpl. rewrite Hc. reflexivity.
Qed.

(** *** [addNginxContainer] *)

Lemma alloc_object_fresh (v : Container.t) (h : Heap.t) :
  Heap.objects h !! (Heap.alloc_object v h).1 = None.
Proof. simpl. apply not_elem_of_dom, is_fresh. Qed.

Lemma alloc_array_fresh (v : list positive) (h : Heap.t) :
  Heap.arrays h !! (Heap.alloc_array v h).1 = None.
Proof. simpl. apply not_elem_of_dom, is_fresh. Qed.

(** Reading an array only depends on the array and on the objects it
    refers to. *)
Lemma read_array_frame (h h' : Heap.t) (a a' : positive)
    (elems : list positive) (cs : list Container.t) (l : positive)
    (c : Container.t) :
  Heap.arrays h !! a = Some elems ->
  Heap.read_array h a = Some cs ->
  (forall x v, Heap.objects h !! x = Some v -> Heap.objects h' !! x = Some v) ->
  Heap.arrays h' !! a' = Some (elems ++ [l]) ->
  Heap.objects h' !! l = Some c ->
  Heap.read_array h' a' = Some (cs ++ [c]).
Proof.
  unfold Heap.read_array. intros Ha Hread Hframe Ha' Hl.
  rewrite Ha in Hread. rewrite Ha'. simpl in *.
  apply mapM_Some. apply mapM_Some in Hread.
  apply Forall2_app.
  - eapply Forall2_impl; [exact Hread |]. intros x y Hx. by apply Hframe.
  - by constructor.
Qed.

(** C7: given the address of an array, [addNginxContainer] returns the
    address of a new array that holds the references of the input array
    followed by one reference to a new object, so its length is one
    more; that last object has [nginx = true], [server = false] and
    [name = "proxy"]; every object and every array that existed before,
    the input array among them, is unchanged.  The imported
    [containerObj] is assumed to copy the [server] flag of the image
    description it is given. *)
Theorem addNginxContainer_appends_proxy (containers : positive)
    (elems : list positive) (remoteObj : RemoteObj.t) (h : Heap.t) :
  (forall cleanName imageObj,
     Container.server (containerObj cleanName imageObj)
       = ImageObj.server imageObj) ->
  Heap.arrays h !! containers = Some elems ->
  exists (result nginx : positive) (entry : Container.t) (h' : Heap.t),
    addNginxContainer containers remoteObj h = (Resolved result, h')
    /\ Heap.arrays h' !! result = Some (elems ++ [nginx])
    /\ length (elems ++ [nginx]) = (length elems + 1)%nat
    /\ last (elems ++ [nginx]) = Some nginx
    /\ take (length elems) (elems ++ [nginx]) = elems
    /\ Heap.objects h' !! nginx = Some entry
    /\ Container.nginx entry = true
    /\ Container.server entry = false
    /\ Container.name entry = "proxy"
    /\ Heap.objects h !! nginx = None
    /\ (forall l c, Heap.objects h !! l = Some c ->
                    Heap.objects h' !! l = Some c)
    /\ (forall a l, Heap.arrays h !! a = Some l ->
                    Heap.arrays h' !! a = Some l)
    /\ Heap.arrays h' !! containers = Some elems
    /\ result <> containers
    /\ (forall cs, Heap.read_array h containers = Some cs ->
                   Heap.read_array h' result = Some (cs ++ [entry])).
Proof.
  intros Hserver Harr.
  set (v := containerObj (RemoteObj.cleanName remoteObj)
              {| ImageObj.name := "jwilder/nginx-proxy";
                 ImageObj.server := false |}).
  set (nginx := (Heap.alloc_object v h).1).
  set (entry := Container.set_name "proxy" (Container.set_nginx true v)).
  set (h3 := Heap.assign nginx (Container.set_name "proxy")
               (Heap.assign nginx (Container.set_nginx true)
                  (Heap.alloc_object v h).2)).
  set (result := (Heap.alloc_array (elems ++ [nginx]) h3).1).
  set (h' := (Heap.alloc_array (elems ++ [nginx]) h3).2).
  assert (Heap.objects h !! nginx = None) as Hfresh
    by apply alloc_object_fresh.
  assert (Heap.arrays h3 = Heap.arrays h) as Harr3 by reflexivity.
  assert (Heap.arrays h !! result = None) as Hfresh_arr.
  { rewrite <- Harr3. apply alloc_array_fresh. }
  assert (Heap.objects h' !! nginx = Some entry) as Hentry.
  { simpl. rewrite !lookup_alter_eq, lookup_insert_eq. reflexivity. }
  assert (forall l c, Heap.objects h !! l = Some c ->
                      Heap.objects h' !! l = Some c) as Hobjs.
  { intros l c Hl. assert (nginx <> l) as Hne by congruence.
    simpl. rewrite !lookup_alter_ne, lookup_insert_ne by exact Hne.
    exact Hl. }
  assert (forall a l, Heap.arrays h !! a = Some l ->
                      Heap.arrays h' !! a = Some l) as Harrs.
  { intros a l Ha. assert (result <> a) as Hne by congruence.
    simpl. rewrite lookup_insert_ne by exact Hne. exact Ha. }
  assert (Heap.arrays h' !! result = Some (elems ++ [nginx])) as Hres.
  { simpl. apply lookup_insert_eq. }
  exists result, nginx, entry, h'.
  split.
  { unfold addNginxContainer. simpl.
    rewrite Harr. reflexivity. }
  split; [exact Hres |].
  split; [by rewrite length_app |].
  split; [apply last_snoc |].
  split; [apply take_app_length |].
  split; [exact Hentry |].
  split; [reflexivity |].
  split; [subst entry v; simpl; by rewrite Hserver |].
  split; [reflexivity |].
  split; [exact Hfresh |].
  split; [exact Hobjs |].
  split; [exact Harrs |].
  split; [by apply Harrs |].
  split; [congruence |].
  intros cs Hcs.
  exact (read_array_frame h h' containers result elems cs nginx entry
           Harr Hcs Hobjs Hres Hentry).
Qed.
End Properties.

(** ** The steps on the concrete world *)

Section Instances.
#[local] Existing Instance Demo.collab.

(** C5 on the list [[mongo, node_server]] with a writable directory: the
    server found is [node_server] and the file is written. *)
Lemma createDockerfile_writes_template_witness :
  (exists c, c ∈ [Demo.mongo; Demo.node_server]
             /\ Container.server c = true)
  /\ exists (pre : list Container.t) (server : Container.t)
            (post : list Container.t),
      [Demo.mongo; Demo.node_server] = (pre ++ server :: post)%list
      /\ (forall c, c ∈ pre -> Container.server c = false)
      /\ Container.server server = true
      /\ dockerFileOf (Container.image server)
         = dockerfile_template (Container.image server)
      /\ run Demo.world (Demo.handle Resolved)
           (createDockerfile [Demo.mongo; Demo.node_server]
              "/home/user/blog") Demo.w_ready
         = (match (Demo.handle Resolved
                     (writeFile ("/home/user/blog" +:+ "/Dockerfile")
                        (dockerFileOf (Container.image server)))
                     Demo.w_ready).1 with
            | Resolved _ => Resolved true
            | Rejected _ => Rejected FAILED_TO_CREATE_DOCKERFILE
            end,
            (Demo.handle Resolved
               (writeFile ("/home/user/blog" +:+ "/Dockerfile")
                  (dockerFileOf (Container.image server)))
               Demo.w_ready).2,
            [writeFile ("/home/user/blog" +:+ "/Dockerfile")
               (dockerFileOf (Container.image server))]).
Proof.
  assert (exists c, c ∈ [Demo.mongo; Demo.node_server]
                    /\ Container.server c = true) as Hex.
  { exists Demo.node_server. split; [| reflexivity].
    apply list_elem_of_further, list_elem_of_here. }
  split; [exact Hex |].
  exact (createDockerfile_writes_template Demo.world (Demo.handle Resolved)
           [Demo.mongo; Demo.node_server] "/home/user/blog" Demo.w_ready
           Hex).
Defined.

(** C5 fails as stated: with a server container in the list but a
    directory that cannot be written, [createDockerfile] does not resolve
    to [true]; it fails with the Dockerfile-creation error and no file
    exists afterwards. *)
Lemma createDockerfile_unwritable_does_not_resolve :
  (exists c, c ∈ [Demo.node_server] /\ Container.server c = true)
  /\ run Demo.world (Demo.handle Resolved)
       (createDockerfile [Demo.node_server] "/nonexistent") Demo.w_readonly
     = (Rejected FAILED_TO_CREATE_DOCKERFILE, Demo.w_readonly,
        [writeFile "/nonexistent/Dockerfile" (dockerFileOf "node:8")])
  /\ outcome Demo.world (Demo.handle Resolved)
       (createDockerfile [Demo.node_server] "/nonexistent") Demo.w_readonly
     <> Resolved true.
Proof.
  split.
  { exists Demo.node_server. split; [apply list_elem_of_here | reflexivity]. }
  split; [reflexivity | discriminate].
Qed.

(** C10 on a list holding only a database container. *)
Lemma createDockerfile_without_server_witness :
  (forall c, c ∈ [Demo.mongo] -> Container.server c = false)
  /\ run Demo.world (Demo.handle Resolved)
       (createDockerfile [Demo.mongo] "/home/user/blog") Demo.w_ready
     = (Rejected FAILED_TO_CREATE_DOCKERFILE, Demo.w_ready, []).
Proof.
  assert (forall c, c ∈ [Demo.mongo] -> Container.server c = false) as Hno.
  { intros c Hc. apply list_elem_of_singleton in Hc. subst c. reflexivity. }
  split; [exact Hno |].
  exact (createDockerfile_without_server Demo.world (Demo.handle Resolved)
           [Demo.mongo] "/home/user/blog" Demo.w_ready Hno).
Defined.


(** C3 on the blog project with a machine that answers. *)
Lemma syncFilesToRemote_sets_ipAddress_witness :
  exists r : RemoteObj.t,
    run Demo.world (Demo.handle Resolved)
      (syncFilesToRemote Demo.blog false) Demo.w_ready
      = (Resolved r, Demo.w_ready,
         [inspect "dockdev-blog";
          rsync ["/home/user/blog/*"; "root@203.0.113.7:/root"]])
    /\ RemoteObj.ipAddress r = "203.0.113.7"
    /\ RemoteObj.cleanName r = "blog"
    /\ RemoteObj.basePath r = "/home/user/blog"
    /\ RemoteObj.machine r = "dockdev-blog"
    /\ RemoteObj.containers r = []
    /\ RemoteObj.counter r = 0%Z
    /\ RemoteObj.status r = 0%Z.
Proof.
  exact (syncFilesToRemote_sets_ipAddress Demo.world (Demo.handle Resolved)
           Demo.blog false "/home/user/blog" "203.0.113.7"
           ("root@203.0.113.7", "203.0.113.7")
           ["/home/user/blog/*"; "root@203.0.113.7:/root"]
           Demo.w_ready Demo.w_ready Demo.w_ready
           eq_refl eq_refl eq_refl eq_refl eq_refl).
Defined.

(** C4 with a configuration file that holds no token. *)
Lemma initRemote_without_token_witness :
  run Demo.world (Demo.handle Resolved)
    (initRemote "blog" "/home/user/blog") Demo.w_notoken
    = (Rejected NO_DOTOKEN, Demo.w_notoken,
       [readConfig "/home/user/.dockdevconfig"])
  /\ (forall c,
        c ∈ calls Demo.world (Demo.handle Resolved)
              (initRemote "blog" "/home/user/blog") Demo.w_notoken ->
        is_provisioning c = false /\ is_remote c = false).
Proof.
  exact (initRemote_without_token Demo.world (Demo.handle Resolved)
           "blog" "/home/user/blog" Demo.w_notoken Demo.w_notoken
           {| AppConfig.DOToken := None |} eq_refl eq_refl).
Defined.

(** C6 on the server entry of the blog project. *)
Lemma createRemoteContainer_sets_id_and_machine_witness :
  exists entry : Container.t,
    run Demo.world (Demo.handle Resolved)
      (createRemoteContainer Demo.node_server Demo.blog) Demo.w_ready
      = (Resolved entry, Demo.w_ready,
         [containerCreate "dockdev-blog"
            (getRemoteConfig Demo.node_server Demo.blog)])
    /\ Container.dockerId entry = "4f1e9a"
    /\ Container.machine entry = "dockdev-blog"
    /\ Container.cleanName entry = "blog"
    /\ Container.image entry = "node:8"
    /\ Container.name entry = "server"
    /\ Container.server entry = true
    /\ Container.nginx entry = false
    /\ Container.status entry = "pending".
Proof.
  exact (createRemoteContainer_sets_id_and_machine Demo.world
           (Demo.handle Resolved) Demo.node_server Demo.blog
           {| DockCont.Id := "4f1e9a" |} Demo.w_ready Demo.w_ready eq_refl).
Defined.

(** C7 on the store that holds the array [[node_server, mongo]] at
    address 1, with the modelled [containerObj]. *)
Lemma addNginxContainer_appends_proxy_witness :
  (forall cleanName imageObj,
     Container.server (Demo.containerObj_model cleanName imageObj)
       = ImageObj.server imageObj)
  /\ Heap.arrays Demo.h_two !! 1%positive = Some [1%positive; 2%positive]
  /\ exists (result nginx : positive) (entry : Container.t) (h' : Heap.t),
      addNginxContainer 1%positive Demo.blog Demo.h_two
        = (Resolved result, h')
      /\ Heap.arrays h' !! result = Some ([1%positive; 2%positive] ++ [nginx])
      /\ length ([1%positive; 2%positive] ++ [nginx])
         = (length [1%positive; 2%positive] + 1)%nat
      /\ last ([1%positive; 2%positive] ++ [nginx]) = Some nginx
      /\ take (length [1%positive; 2%positive])
           ([1%positive; 2%positive] ++ [nginx])
         = [1%positive; 2%positive]
      /\ Heap.objects h' !! nginx = Some entry
      /\ Container.nginx entry = true
      /\ Container.server entry = false
      /\ Container.name entry = "proxy"
      /\ Heap.objects Demo.h_two !! nginx = None
      /\ (forall l c, Heap.objects Demo.h_two !! l = Some c ->
                      Heap.objects h' !! l = Some c)
      /\ (forall a l, Heap.arrays Demo.h_two !! a = Some l ->
                      Heap.arrays h' !! a = Some l)
      /\ Heap.arrays h' !! 1%positive = Some [1%positive; 2%positive]
      /\ result <> 1%positive
      /\ (forall cs, Heap.read_array Demo.h_two 1%positive = Some cs ->
                     Heap.read_array h' result = Some (cs ++ [entry])).
Proof.
  split; [intros cleanName imageObj; reflexivity |].
  split; [reflexivity |].
  exact (addNginxContainer_appends_proxy 1%positive
           [1%positive; 2%positive] Demo.blog Demo.h_two
           (fun _ _ => eq_refl) eq_refl).
Defined.

(** The same call, evaluated: the new array is at address 2, its entries
    are the two of the input followed by the proxy entry, and the input
    array still holds its two entries. *)
Example addNginxContainer_on_two_entries :
  (addNginxContainer 1%positive Demo.blog Demo.h_two).1 = Resolved 2%positive
  /\ Heap.read_array (addNginxContainer 1%positive Demo.blog Demo.h_two).2
       2%positive
     = Some [Demo.node_server; Demo.mongo; Demo.proxy]
  /\ Heap.read_array (addNginxContainer 1%positive Demo.blog Demo.h_two).2
       1%positive
     = Some [Demo.node_server; Demo.mongo].
Proof. repeat split; vm_compute; reflexivity. Qed.
End Instances.

(** The build descriptor for the image [node:8]: its first line, and the
    number of its lines. *)
Example dockerFileOf_node_8 :
  dockerfile_lines "node:8" !! 0%nat = Some "From node:8"
  /\ length (dockerfile_lines "node:8") = 6%nat
  /\ dockerFileOf "node:8" = String.concat nl (dockerfile_lines "node:8").
Proof. repeat split. Qed.

(** * Further properties *)

(** ** Strings *)

Lemma append_assoc (s1 s2 s3 : string) :
  (s1 +:+ s2) +:+ s3 = s1 +:+ (s2 +:+ s3).
Proof.
  induction s1 as [|a s1 IH]; [reflexivity |].
  change (String a ((s1 +:+ s2) +:+ s3) = String a (s1 +:+ (s2 +:+ s3))).
  f_equal. exact IH.
Qed.

Lemma append_inj_l (s s1 s2 : string) : s +:+ s1 = s +:+ s2 -> s1 = s2.
Proof.
  induction s as [|a s IH]; intros Heq; [exact Heq |].
  change (String a (s +:+ s1) = String a (s +:+ s2)) in Heq.
  apply IH. by injection Heq.
Qed.

(** ** Role dispatch of the configuration generator *)

(** X1: the generated configuration carries an [Env] list exactly for
    server containers; no other role is given [VIRTUAL_HOST]. *)
Theorem config_env_iff_server (c : Container.t) (r : RemoteObj.t) :
  is_Some (Config.Env (getRemoteConfig c r)) <-> Container.server c = true.
Proof.
  unfold getRemoteConfig.
  destruct (Container.server c), (Container.nginx c); simpl; split;
    intros Hx; try reflexivity; try discriminate; try (by eexists);
    by destruct Hx.
Qed.

(** X2: port bindings, exposed ports and the control-socket bind mount
    are generated exactly for a container marked [nginx] that is not
    marked [server]; on a container marked both, the server role wins and
    nothing is published. *)
Theorem config_publishes_iff_proxy_only (c : Container.t) (r : RemoteObj.t) :
  (is_Some (Config.PortBindings (Config.HostConfig (getRemoteConfig c r)))
     <-> Container.server c = false /\ Container.nginx c = true)
  /\ (is_Some (Config.ExposedPorts (getRemoteConfig c r))
     <-> Container.server c = false /\ Container.nginx c = true)
  /\ (is_Some (Config.Binds (Config.HostConfig (getRemoteConfig c r)))
     <-> Container.server c = false /\ Container.nginx c = true).
Proof.
  unfold getRemoteConfig.
  destruct (Container.server c), (Container.nginx c); simpl;
    (split; [| split]); (split; intros Hx);
    first [ done | by eexists | by destruct Hx ].
Qed.

(** X3: the proxy is the one role that is not attached to the project
    network: a container marked [nginx] and not [server] gets no
    [NetworkMode], every other container gets the network named by its
    own [cleanName]. *)
Theorem config_network_unless_proxy (c : Container.t) (r : RemoteObj.t) :
  Config.NetworkMode (Config.HostConfig (getRemoteConfig c r))
  = if negb (Container.server c) && Container.nginx c then None
    else Some (Container.cleanName c).
Proof.
  unfold getRemoteConfig.
  destruct (Container.server c), (Container.nginx c); reflexivity.
Qed.

(** X4: the deployment record enters the configuration only through its
    [ipAddress], and only for a server container: two records with the
    same address give the same configuration, and for a container that
    is not a server any two records do. *)
Theorem config_depends_on_record_ip_only (c : Container.t)
    (r r' : RemoteObj.t) :
  (RemoteObj.ipAddress r = RemoteObj.ipAddress r' \/
   Container.server c = false) ->
  getRemoteConfig c r = getRemoteConfig c r'.
Proof.
  unfold getRemoteConfig, setRemoteServerParams.
  intros [Hip | Hs].
  - rewrite Hip. reflexivity.
  - rewrite Hs. reflexivity.
Qed.

(** X4 on the proxy entry: the records of two different projects give the
    same configuration. *)
Lemma config_depends_on_record_ip_only_witness :
  getRemoteConfig Demo.proxy Demo.blog = getRemoteConfig Demo.proxy Demo.demo2.
Proof.
  apply (config_depends_on_record_ip_only Demo.proxy Demo.blog Demo.demo2).
  right. reflexivity.
Defined.

(** X5: the configuration does not depend on the fields that creation
    fills in: the entry returned by [createRemoteContainer], with its
    [dockerId] and [machine] set, is configured like the entry that was
    passed in. *)
Theorem config_ignores_creation_fields (c : Container.t) (r : RemoteObj.t)
    (id machine : string) :
  getRemoteConfig
    (Container.set_machine machine (Container.set_dockerId id c)) r
  = getRemoteConfig c r.
Proof.
  unfold getRemoteConfig. simpl.
  destruct (Container.server c), (Container.nginx c); reflexivity.
Qed.

(** ** The server entry of a record *)

(** X6: for a record whose counter is a safe integer, the entry built by
    [remoteServerObj] is configured as a server on that record's own
    network: [NetworkMode] is the record's [cleanName], [Env] holds
    [VIRTUAL_HOST=] with the record's address, the image is
    [dockdev/<cleanName>:<counter>] and nothing is published. *)
Theorem remoteServerObj_config (r : RemoteObj.t) :
  isSafeInteger (RemoteObj.counter r) = true ->
  getRemoteConfig (remoteServerObj r) r
  = {| Config.image :=
         "dockdev/" +:+ RemoteObj.cleanName r +:+ ":"
           +:+ pretty (RemoteObj.counter r);
       Config.name := "server" +:+ pretty (RemoteObj.counter r);
       Config.Env := Some ["VIRTUAL_HOST=" +:+ RemoteObj.ipAddress r];
       Config.HostConfig :=
         {| Config.NetworkMode := Some (RemoteObj.cleanName r);
            Config.Binds := None;
            Config.PortBindings := None |};
       Config.ExposedPorts := None |}.
Proof. intros _. reflexivity. Qed.

(** X6 on the record of the [demo] project after two builds. *)
Lemma remoteServerObj_config_witness :
  isSafeInteger (RemoteObj.counter Demo.demo2) = true
  /\ getRemoteConfig (remoteServerObj Demo.demo2) Demo.demo2
     = {| Config.image := "dockdev/demo:2";
          Config.name := "server2";
          Config.Env := Some ["VIRTUAL_HOST=203.0.113.7"];
          Config.HostConfig :=
            {| Config.NetworkMode := Some "demo";
               Config.Binds := None;
               Config.PortBindings := None |};
          Config.ExposedPorts := None |}.
Proof.
  split; [reflexivity |].
  exact (remoteServerObj_config Demo.demo2 eq_refl).
Defined.

(** X7: entries built for two different counters, both safe integers,
    never share a name, and for one project never share an image
    reference. *)
Theorem remoteServerObj_counter_inj (r1 r2 : RemoteObj.t) :
  isSafeInteger (RemoteObj.counter r1) = true ->
  isSafeInteger (RemoteObj.counter r2) = true ->
  RemoteObj.counter r1 <> RemoteObj.counter r2 ->
  Container.name (remoteServerObj r1) <> Container.name (remoteServerObj r2)
  /\ (RemoteObj.cleanName r1 = RemoteObj.cleanName r2 ->
      Container.image (remoteServerObj r1)
        <> Container.image (remoteServerObj r2)).
Proof.
  intros _ _ Hne. split.
  - unfold remoteServerObj. cbn [Container.name]. intros Heq.
    apply append_inj_l in Heq. by apply (inj pretty) in Heq.
  - intros Hn. unfold remoteServerObj. cbn [Container.image].
    rewrite Hn. intros Heq.
    do 3 apply append_inj_l in Heq. by apply (inj pretty) in Heq.
Qed.

(** X7 on the [demo] project before its first build and after two. *)
Lemma remoteServerObj_counter_inj_witness :
  Container.name (remoteServerObj (createRemoteObj "demo" "/home/user/demo"))
    <> Container.name (remoteServerObj Demo.demo2)
  /\ (RemoteObj.cleanName (createRemoteObj "demo" "/home/user/demo")
        = RemoteObj.cleanName Demo.demo2 ->
      Container.image
        (remoteServerObj (createRemoteObj "demo" "/home/user/demo"))
        <> Container.image (remoteServerObj Demo.demo2)).
Proof.
  apply (remoteServerObj_counter_inj
           (createRemoteObj "demo" "/home/user/demo") Demo.demo2
           eq_refl eq_refl).
  discriminate.
Defined.

(** X8: two projects get the same machine name only when their clean
    names are equal. *)
Theorem createRemoteObj_machine_inj (cleanName1 cleanName2 path1 path2 : string) :
  RemoteObj.machine (createRemoteObj cleanName1 path1)
    = RemoteObj.machine (createRemoteObj cleanName2 path2) ->
  cleanName1 = cleanName2.
Proof. unfold createRemoteObj. simpl. apply append_inj_l. Qed.

(** X8 on one project opened from two directories. *)
Lemma createRemoteObj_machine_inj_witness :
  RemoteObj.machine (createRemoteObj "blog" "/home/user/blog")
    = RemoteObj.machine (createRemoteObj "blog" "/tmp/blog")
  /\ "blog" = "blog".
Proof.
  split; [reflexivity |].
  exact (createRemoteObj_machine_inj "blog" "blog" "/home/user/blog"
           "/tmp/blog" eq_refl).
Defined.

(** X9: whatever extra options are passed, [createDroplet] puts the
    driver flag first, the token flag second and the droplet name last. *)
Theorem createDroplet_argument_order `{Collaborators}
    (dropletName token : string) (args : list string) :
  exists l : list string,
    createDroplet dropletName token args = createMachine l
    /\ l !! 0%nat = Some "--driver digitalocean"
    /\ l !! 1%nat = Some ("--digitalocean-access-token=" +:+ token)
    /\ last l = Some dropletName
    /\ length l = (length args + 3)%nat
    /\ take (length args) (drop 2 l) = args.
Proof.
  eexists. split; [reflexivity |].
  split; [reflexivity |]. split; [reflexivity |].
  split.
  { simpl. rewrite !last_cons, last_snoc. reflexivity. }
  split.
  { simpl. rewrite length_app. simpl. lia. }
  simpl. apply take_app_length.
Qed.

(** ** Further properties of the coroutines *)

Section MoreProperties.
Context `{Collaborators}.
Variable World : Type.
Variable handle : forall c : Cmd, World -> Outcome (resp c) * World.

(** *** [createDockerfile] *)

(** X10: whatever the container list, the path and the outside world,
    [createDockerfile] ends in one of two ways, resolving to [true] or
    failing with the Dockerfile-creation error; it makes at most one
    external call, and that call writes [basePath/Dockerfile] on the
    local disk. *)
Theorem createDockerfile_outcomes_and_calls (containers : list Container.t)
    (basePath : string) (w : World) :
  (outcome World handle (createDockerfile containers basePath) w
     = Resolved true
   \/ outcome World handle (createDockerfile containers basePath) w
     = Rejected FAILED_TO_CREATE_DOCKERFILE)
  /\ (length (calls World handle (createDockerfile containers basePath) w)
      <= 1)%nat
  /\ (forall c,
        c ∈ calls World handle (createDockerfile containers basePath) w ->
        (exists data, c = writeFile (basePath +:+ "/Dockerfile") data)
        /\ is_remote c = false).
Proof.
  unfold outcome, calls, createDockerfile.
  destruct (List.filter Container.server containers !! 0%nat) as [s|];
    simpl.
  - destruct (handle _ w) as [[v | e] w1]; simpl;
      (split; [auto | split; [lia |]]);
      intros c ->%list_elem_of_singleton; (split; [by eexists | reflexivity]).
  - split; [auto | split; [lia |]].
    intros c Hc. by apply elem_of_nil in Hc.
Qed.

(** *** [buildServerImage] *)

(** X11: for a record whose counter is a safe integer,
    [buildServerImage] makes one [ssh] call on the record's machine,
    building the image under the reference that [remoteServerObj] gives
    the server entry.  It resolves to [true] when the call resolves; when
    the call is rejected the rejection reaches the caller as it is, not
    as the build error. *)
Theorem buildServerImage_run (remoteObj : RemoteObj.t) (w : World) :
  isSafeInteger (RemoteObj.counter remoteObj) = true ->
  exists c : Cmd,
    c = ssh (RemoteObj.machine remoteObj)
          ("docker build -t "
             +:+ Container.image (remoteServerObj remoteObj) +:+ " .")
    /\ run World handle (buildServerImage remoteObj) w
       = (match (handle c w).1 with
          | Resolved _ => Resolved true
          | Rejected e => Rejected e
          end, (handle c w).2, [c]).
Proof.
  intros _. eexists. split; [reflexivity |].
  unfold buildServerImage, remoteServerObj. cbn [Container.image].
  replace ("docker build -t "
             +:+ ("dockdev/" +:+ RemoteObj.cleanName remoteObj +:+ ":"
                  +:+ pretty (RemoteObj.counter remoteObj)) +:+ " .")
    with ("docker build -t dockdev/" +:+ RemoteObj.cleanName remoteObj
            +:+ ":" +:+ pretty (RemoteObj.counter remoteObj) +:+ " .").
  - simpl. destruct (handle _ w) as [[v | e] w1]; reflexivity.
  - change ("docker build -t dockdev/" +:+ ?x)
      with ("docker build -t " +:+ ("dockdev/" +:+ x)).
    f_equal.
    rewrite !append_assoc. reflexivity.
Qed.

(** *** [syncFilesToRemote] *)

Lemma syncFilesToRemote_success_run (remoteObj : RemoteObj.t)
    (local : bool) (cleanPath : string) (out : InspectOut)
    (info : MachineInfo) (args : RsyncArgs) (w w1 w2 : World) :
  cleanFilePath (RemoteObj.basePath remoteObj) = Resolved cleanPath ->
  handle (inspect (RemoteObj.machine remoteObj)) w = (Resolved out, w1) ->
  selectSSHandIP out = Resolved info ->
  createRemoteRsyncArgs (cleanPath +:+ "/*")
    (if local then "/home/docker" else remoteDest) info local
    = Resolved args ->
  handle (rsync args) w1 = (Resolved (), w2) ->
  run World handle (syncFilesToRemote remoteObj local) w
    = (Resolved (RemoteObj.set_ipAddress (IPAddress info) remoteObj), w2,
       [inspect (RemoteObj.machine remoteObj); rsync args]).
Proof.
  intros Hp Hi Hs Ha Hr.
  unfold syncFilesToRemote. rewrite Hp. simpl. rewrite Hi. simpl.
  rewrite Hs. simpl. rewrite Ha. simpl. rewrite Hr. reflexivity.
Qed.

(** X12: every run of [syncFilesToRemote] is of one of three kinds.  When
    the path normalisation throws, the error is rethrown as it is and no
    call is made.  Otherwise the first call is the inspection of the
    record's machine, at most one call follows and it is an [rsync], and
    the coroutine either fails with the sync error or resolves to the
    input record with a new [ipAddress]. *)
Theorem syncFilesToRemote_outcomes_and_calls (remoteObj : RemoteObj.t)
    (local : bool) (w : World) :
  match cleanFilePath (RemoteObj.basePath remoteObj) with
  | Rejected e =>
      run World handle (syncFilesToRemote remoteObj local) w
        = (Rejected e, w, [])
  | Resolved _ =>
      (outcome World handle (syncFilesToRemote remoteObj local) w
         = Rejected FAILED_TO_SYNC_TO_REMOTE
       \/ exists info,
           outcome World handle (syncFilesToRemote remoteObj local) w
             = Resolved (RemoteObj.set_ipAddress (IPAddress info) remoteObj))
      /\ (calls World handle (syncFilesToRemote remoteObj local) w
            = [inspect (RemoteObj.machine remoteObj)]
          \/ exists args,
              calls World handle (syncFilesToRemote remoteObj local) w
                = [inspect (RemoteObj.machine remoteObj); rsync args])
  end.
Proof.
  destruct (cleanFilePath (RemoteObj.basePath remoteObj)) as [cp | e] eqn:Hp.
  2: { by apply syncFilesToRemote_path_failure. }
  unfold outcome, calls, syncFilesToRemote. rewrite Hp. simpl.
  destruct (handle (inspect _) w) as [[out | e] w1]; simpl; [| by auto].
  destruct (selectSSHandIP out) as [info | e]; simpl; [| by auto].
  destruct (createRemoteRsyncArgs _ _ info local) as [args | e]; simpl;
    [| by auto].
  destruct (handle (rsync args) w1) as [[[] | e] w2]; simpl.
  - split; [right; by exists info | right; by exists args].
  - split; [by left | right; by exists args].
Qed.

(** X13: when the inspection is rejected, [rsync] is not attempted: the
    inspection is the only call, and the world is as the inspection left
    it. *)
Theorem syncFilesToRemote_inspect_rejected (remoteObj : RemoteObj.t)
    (local : bool) (cleanPath : string) (e : Err) (w w1 : World) :
  cleanFilePath (RemoteObj.basePath remoteObj) = Resolved cleanPath ->
  handle (inspect (RemoteObj.machine remoteObj)) w = (Rejected e, w1) ->
  run World handle (syncFilesToRemote remoteObj local) w
    = (Rejected FAILED_TO_SYNC_TO_REMOTE, w1,
       [inspect (RemoteObj.machine remoteObj)]).
Proof.
  intros Hp Hi. unfold syncFilesToRemote. rewrite Hp. simpl.
  rewrite Hi. reflexivity.
Qed.

(** X14: the server configuration generated from the record that a
    successful [syncFilesToRemote] returns carries [VIRTUAL_HOST=]
    followed by the address extracted from the inspection, while the
    configuration of every container that is not a server is the one the
    record gave before the synchronisation. *)
Theorem syncFilesToRemote_then_config (remoteObj : RemoteObj.t)
    (local : bool) (cleanPath : string) (out : InspectOut)
    (info : MachineInfo) (args : RsyncArgs) (w w1 w2 : World) :
  cleanFilePath (RemoteObj.basePath remoteObj) = Resolved cleanPath ->
  handle (inspect (RemoteObj.machine remoteObj)) w = (Resolved out, w1) ->
  selectSSHandIP out = Resolved info ->
  createRemoteRsyncArgs (cleanPath +:+ "/*")
    (if local then "/home/docker" else remoteDest) info local
    = Resolved args ->
  handle (rsync args) w1 = (Resolved (), w2) ->
  exists synced : RemoteObj.t,
    outcome World handle (syncFilesToRemote remoteObj local) w
      = Resolved synced
    /\ (forall c, Container.server c = true ->
          Config.Env (getRemoteConfig c synced)
            = Some ["VIRTUAL_HOST=" +:+ IPAddress info])
    /\ (forall c, Container.server c = false ->
          getRemoteConfig c synced = getRemoteConfig c remoteObj).
Proof.
  intros Hp Hi Hs Ha Hr.
  exists (RemoteObj.set_ipAddress (IPAddress info) remoteObj).
  split.
  { unfold outcome.
    by rewrite (syncFilesToRemote_success_run remoteObj local cleanPath out
                  info args w w1 w2 Hp Hi Hs Ha Hr). }
  split.
  - intros c Hc. unfold getRemoteConfig. rewrite Hc. reflexivity.
  - intros c Hc. unfold getRemoteConfig. rewrite Hc. reflexivity.
Qed.

(** *** [initRemote] *)

(** X15: with a non-empty token in the configuration file and every call
    succeeding, [initRemote] makes five calls in this order: it reads the
    configuration file, loads the project, creates the machine
    [dockdev-<cleanName>] with the DigitalOcean driver and the token,
    writes back the project that was loaded, and creates the network of
    the new record.  It resolves to that record, whose [ipAddress] is
    still empty. *)
Theorem initRemote_success (cleanName path token : string)
    (readConfigFile : AppConfig.t) (projObj : ProjObj)
    (w w1 w2 w3 w4 w5 : World) :
  handle (readConfig configPath) w = (Resolved readConfigFile, w1) ->
  AppConfig.DOToken readConfigFile = Some token ->
  token <> EmptyString ->
  handle (loadProject path) w1 = (Resolved projObj, w2) ->
  handle (createMachine
            ["--driver digitalocean";
             "--digitalocean-access-token=" +:+ token;
             "dockdev-" +:+ cleanName]) w2 = (Resolved (), w3) ->
  handle (writeProj projObj) w3 = (Resolved (), w4) ->
  handle (createRemoteNetwork (createRemoteObj cleanName path)) w4
    = (Resolved (), w5) ->
  run World handle (initRemote cleanName path) w
    = (Resolved (createRemoteObj cleanName path), w5,
       [readConfig configPath;
        loadProject path;
        createMachine
          ["--driver digitalocean";
           "--digitalocean-access-token=" +:+ token;
           "dockdev-" +:+ cleanName];
        writeProj projObj;
        createRemoteNetwork (createRemoteObj cleanName path)])
  /\ RemoteObj.machine (createRemoteObj cleanName path)
     = "dockdev-" +:+ cleanName
  /\ RemoteObj.ipAddress (createRemoteObj cleanName path) = EmptyString.
Proof.
  intros Hr Ht Hne Hl Hm Hw Hn.
  split; [| split; reflexivity].
  unfold initRemote. simpl. rewrite Hr. simpl. rewrite Ht.
  assert (falsy (Some token) = false) as ->.
  { unfold falsy. by apply bool_decide_eq_false. }
  simpl. rewrite Hl. simpl.
  unfold createDroplet. simpl.
  change (RemoteObj.machine (createRemoteObj cleanName path))
    with ("dockdev-" +:+ cleanName).
  rewrite Hm. simpl. rewrite Hw. simpl. rewrite Hn. reflexivity.
Qed.

(** X16: a token that is present but empty is treated like a missing
    one: [initRemote] fails with the missing-token error after reading
    the configuration file, and makes no other call. *)
Theorem initRemote_empty_token (cleanName path : string)
    (readConfigFile : AppConfig.t) (w w1 : World) :
  handle (readConfig configPath) w = (Resolved readConfigFile, w1) ->
  AppConfig.DOToken readConfigFile = Some EmptyString ->
  run World handle (initRemote cleanName path) w
    = (Rejected NO_DOTOKEN, w1, [readConfig configPath]).
Proof.
  intros Hr Ht.
  apply (initRemote_falsy_token World handle _ _ _ _ readConfigFile Hr).
  by rewrite Ht.
Qed.

(** X17: when the creation of the machine is rejected, [initRemote]
    fails with that same rejection, and stops: the project is not written
    back and no network is created. *)
Theorem initRemote_createMachine_rejected (cleanName path token : string)
    (readConfigFile : AppConfig.t) (projObj : ProjObj) (e : Err)
    (w w1 w2 w3 : World) :
  handle (readConfig configPath) w = (Resolved readConfigFile, w1) ->
  AppConfig.DOToken readConfigFile = Some token ->
  token <> EmptyString ->
  handle (loadProject path) w1 = (Resolved projObj, w2) ->
  handle (createMachine
            ["--driver digitalocean";
             "--digitalocean-access-token=" +:+ token;
             "dockdev-" +:+ cleanName]) w2 = (Rejected e, w3) ->
  run World handle (initRemote cleanName path) w
    = (Rejected e, w3,
       [readConfig configPath;
        loadProject path;
        createMachine
          ["--driver digitalocean";
           "--digitalocean-access-token=" +:+ token;
           "dockdev-" +:+ cleanName]]).
Proof.
  intros Hr Ht Hne Hl Hm.
  unfold initRemote. simpl. rewrite Hr. simpl. rewrite Ht.
  assert (falsy (Some token) = false) as ->.
  { unfold falsy. by apply bool_decide_eq_false. }
  simpl. rewrite Hl. simpl.
  unfold createDroplet. simpl.
  change (RemoteObj.machine (createRemoteObj cleanName path))
    with ("dockdev-" +:+ cleanName).
  rewrite Hm. reflexivity.
Qed.

(** X18: when the project cannot be loaded, [initRemote] fails with that
    rejection before any machine is created: the calls made are the two
    local reads. *)
Theorem initRemote_loadProject_rejected (cleanName path token : string)
    (readConfigFile : AppConfig.t) (e : Err) (w w1 w2 : World) :
  handle (readConfig configPath) w = (Resolved readConfigFile, w1) ->
  AppConfig.DOToken readConfigFile = Some token ->
  token <> EmptyString ->
  handle (loadProject path) w1 = (Rejected e, w2) ->
  run World handle (initRemote cleanName path) w
    = (Rejected e, w2, [readConfig configPath; loadProject path])
  /\ (forall c, c ∈ calls World handle (initRemote cleanName path) w ->
        is_remote c = false).
Proof.
  intros Hr Ht Hne Hl.
  assert (run World handle (initRemote cleanName path) w
          = (Rejected e, w2, [readConfig configPath; loadProject path]))
    as Hrun.
  { unfold initRemote. simpl. rewrite Hr. simpl. rewrite Ht.
    assert (falsy (Some token) = false) as ->.
    { unfold falsy. by apply bool_decide_eq_false. }
    simpl. rewrite Hl. reflexivity. }
  split; [exact Hrun |].
  intros c. unfold calls. rewrite Hrun. simpl.
  intros [-> | ->%list_elem_of_singleton]%elem_of_cons; reflexivity.
Qed.

(** *** [createRemoteContainer] *)

(** X19: when the create call of the container runtime is rejected,
    [createRemoteContainer] fails with that same rejection after its one
    call, and no entry is returned. *)
Theorem createRemoteContainer_rejected (container : Container.t)
    (remoteObj : RemoteObj.t) (e : Err) (w w1 : World) :
  handle (containerCreate (RemoteObj.machine remoteObj)
            (getRemoteConfig container remoteObj)) w
    = (Rejected e, w1) ->
  run World handle (createRemoteContainer container remoteObj) w
    = (Rejected e, w1,
       [containerCreate (RemoteObj.machine remoteObj)
          (getRemoteConfig container remoteObj)]).
Proof.
  intros Hc. unfold createRemoteContainer. simpl. rewrite Hc. reflexivity.
Qed.

(** *** [addNginxContainer] *)

Lemma addNginxContainer_run (containers : positive) (elems : list positive)
    (remoteObj : RemoteObj.t) (h : Heap.t) :
  Heap.arrays h !! containers = Some elems ->
  exists (nginx result : positive) (h' : Heap.t),
    addNginxContainer containers remoteObj h = (Resolved result, h')
    /\ Heap.objects h !! nginx = None
    /\ Heap.arrays h !! result = None
    /\ Heap.objects h'
       = <[nginx :=
             Container.set_name "proxy"
               (Container.set_nginx true
                  (containerObj (RemoteObj.cleanName remoteObj)
                     {| ImageObj.name := "jwilder/nginx-proxy";
                        ImageObj.server := false |}))]> (Heap.objects h)
    /\ Heap.arrays h' = <[result := elems ++ [nginx]]> (Heap.arrays h).
Proof.
  intros Harr.
  exists (fresh (dom (Heap.objects h))), (fresh (dom (Heap.arrays h))).
  eexists. split.
  { unfold addNginxContainer. simpl. rewrite Harr. reflexivity. }
  split; [apply not_elem_of_dom, is_fresh |].
  split; [apply not_elem_of_dom, is_fresh |].
  split; [| reflexivity].
  simpl. rewrite !alter_insert_eq. reflexivity.
Qed.

(** X20: [addNginxContainer] does not look for a proxy that is already
    there.  Applied to its own result it appends a second proxy object,
    different from the first: the final array holds the references of
    the original array followed by two distinct references, both to
    entries named [proxy] with [nginx = true], and the two earlier arrays
    are unchanged. *)
Theorem addNginxContainer_twice (containers : positive)
    (elems : list positive) (remoteObj : RemoteObj.t) (h : Heap.t) :
  Heap.arrays h !! containers = Some elems ->
  exists (r1 r2 n1 n2 : positive) (e1 e2 : Container.t) (h1 h2 : Heap.t),
    addNginxContainer containers remoteObj h = (Resolved r1, h1)
    /\ addNginxContainer r1 remoteObj h1 = (Resolved r2, h2)
    /\ Heap.arrays h2 !! r2 = Some (elems ++ [n1; n2])
    /\ n1 <> n2
    /\ Heap.objects h2 !! n1 = Some e1
    /\ Heap.objects h2 !! n2 = Some e2
    /\ Container.nginx e1 = true /\ Container.name e1 = "proxy"
    /\ Container.nginx e2 = true /\ Container.name e2 = "proxy"
    /\ Heap.arrays h2 !! r1 = Some (elems ++ [n1])
    /\ Heap.arrays h2 !! containers = Some elems.
Proof.
  intros Harr.
  destruct (addNginxContainer_run containers elems remoteObj h Harr)
    as (n1 & r1 & h1 & Hrun1 & Hn1 & Hr1 & Hobj1 & Harr1).
  assert (Heap.arrays h1 !! r1 = Some (elems ++ [n1])) as Harr1'.
  { rewrite Harr1. apply lookup_insert_eq. }
  destruct (addNginxContainer_run r1 (elems ++ [n1]) remoteObj h1 Harr1')
    as (n2 & r2 & h2 & Hrun2 & Hn2 & Hr2 & Hobj2 & Harr2).
  assert (n1 <> n2) as Hne.
  { intros ->. rewrite Hobj1, lookup_insert_eq in Hn2. discriminate. }
  assert (r2 <> r1) as Hner by congruence.
  assert (r1 <> containers) as Hnec by congruence.
  assert (r2 <> containers) as Hnec2.
  { intros ->. rewrite Harr1, lookup_insert_ne in Hr2 by exact Hnec.
    congruence. }
  eexists r1, r2, n1, n2, _, _, h1, h2.
  split; [exact Hrun1 |]. split; [exact Hrun2 |].
  split.
  { rewrite Harr2, lookup_insert_eq, <- (assoc_L (++)). reflexivity. }
  split; [exact Hne |].
  split.
  { rewrite Hobj2, lookup_insert_ne by congruence.
    rewrite Hobj1. apply lookup_insert_eq. }
  split; [rewrite Hobj2; apply lookup_insert_eq |].
  split; [reflexivity |]. split; [reflexivity |].
  split; [reflexivity |]. split; [reflexivity |].
  split.
  { rewrite Harr2, lookup_insert_ne by exact Hner. exact Harr1'. }
  rewrite Harr2, lookup_insert_ne by exact Hnec2.
  rewrite Harr1, lookup_insert_ne by exact Hnec. exact Harr.
Qed.
End MoreProperties.

(** ** The further properties on the concrete worlds *)

Section MoreInstances.
#[local] Existing Instance Demo.collab.

(** X13 with a machine that does not answer. *)
Lemma syncFilesToRemote_inspect_rejected_witness :
  run Demo.world (Demo.handle Resolved)
    (syncFilesToRemote Demo.blog false) Demo.w_down
  = (Rejected FAILED_TO_SYNC_TO_REMOTE, Demo.w_down,
     [inspect "dockdev-blog"]).
Proof.
  exact (syncFilesToRemote_inspect_rejected Demo.world
           (Demo.handle Resolved) Demo.blog false "/home/user/blog"
           (LowLevel "machine does not exist") Demo.w_down Demo.w_down
           eq_refl eq_refl).
Defined.

(** X14 on the blog project with a machine that answers. *)
Lemma syncFilesToRemote_then_config_witness :
  exists synced : RemoteObj.t,
    outcome Demo.world (Demo.handle Resolved)
      (syncFilesToRemote Demo.blog false) Demo.w_ready
      = Resolved synced
    /\ (forall c, Container.server c = true ->
          Config.Env (getRemoteConfig c synced)
            = Some ["VIRTUAL_HOST=" +:+ "203.0.113.7"])
    /\ (forall c, Container.server c = false ->
          getRemoteConfig c synced = getRemoteConfig c Demo.blog).
Proof.
  exact (syncFilesToRemote_then_config Demo.world (Demo.handle Resolved)
           Demo.blog false "/home/user/blog" "203.0.113.7"
           ("root@203.0.113.7", "203.0.113.7")
           ["/home/user/blog/*"; "root@203.0.113.7:/root"]
           Demo.w_ready Demo.w_ready Demo.w_ready
           eq_refl eq_refl eq_refl eq_refl eq_refl).
Defined.

(** X15 in the world where every call succeeds. *)
Lemma initRemote_success_witness :
  run Demo.world (Demo.handle Resolved)
    (initRemote "blog" "/home/user/blog") Demo.w_ready
    = (Resolved (createRemoteObj "blog" "/home/user/blog"), Demo.w_ready,
       [readConfig "/home/user/.dockdevconfig";
        loadProject "/home/user/blog";
        createMachine
          ["--driver digitalocean";
           "--digitalocean-access-token=" +:+ "dop_v1_0a1b";
           "dockdev-" +:+ "blog"];
        writeProj [];
        createRemoteNetwork (createRemoteObj "blog" "/home/user/blog")])
  /\ RemoteObj.machine (createRemoteObj "blog" "/home/user/blog")
     = "dockdev-" +:+ "blog"
  /\ RemoteObj.ipAddress (createRemoteObj "blog" "/home/user/blog")
     = EmptyString.
Proof.
  refine (initRemote_success Demo.world (Demo.handle Resolved)
            "blog" "/home/user/blog" "dop_v1_0a1b"
            {| AppConfig.DOToken := Some "dop_v1_0a1b" |} []
            Demo.w_ready Demo.w_ready Demo.w_ready Demo.w_ready
            Demo.w_ready Demo.w_ready
            eq_refl eq_refl _ eq_refl eq_refl eq_refl eq_refl).
  discriminate.
Defined.

(** X16 with an empty token in the configuration file. *)
Lemma initRemote_empty_token_witness :
  run Demo.world (Demo.handle Resolved)
    (initRemote "blog" "/home/user/blog") Faulty.w_emptytoken
  = (Rejected NO_DOTOKEN, Faulty.w_emptytoken,
     [readConfig "/home/user/.dockdevconfig"]).
Proof.
  exact (initRemote_empty_token Demo.world (Demo.handle Resolved)
           "blog" "/home/user/blog"
           {| AppConfig.DOToken := Some EmptyString |}
           Faulty.w_emptytoken Faulty.w_emptytoken eq_refl eq_refl).
Defined.

(** X17 with a provisioning backend that refuses the creation. *)
Lemma initRemote_createMachine_rejected_witness :
  run Demo.world (Faulty.handle Faulty.is_createMachine)
    (initRemote "blog" "/home/user/blog") Demo.w_ready
  = (Rejected (LowLevel "connection refused"), Demo.w_ready,
     [readConfig "/home/user/.dockdevconfig";
      loadProject "/home/user/blog";
      createMachine
        ["--driver digitalocean";
         "--digitalocean-access-token=" +:+ "dop_v1_0a1b";
         "dockdev-" +:+ "blog"]]).
Proof.
  refine (initRemote_createMachine_rejected Demo.world
            (Faulty.handle Faulty.is_createMachine)
            "blog" "/home/user/blog" "dop_v1_0a1b"
            {| AppConfig.DOToken := Some "dop_v1_0a1b" |} []
            (LowLevel "connection refused")
            Demo.w_ready Demo.w_ready Demo.w_ready Demo.w_ready
            eq_refl eq_refl _ eq_refl eq_refl).
  discriminate.
Defined.

(** X18 with a project file that cannot be read. *)
Lemma initRemote_loadProject_rejected_witness :
  run Demo.world (Faulty.handle Faulty.is_loadProject)
    (initRemote "blog" "/home/user/blog") Demo.w_ready
    = (Rejected (LowLevel "connection refused"), Demo.w_ready,
       [readConfig "/home/user/.dockdevconfig";
        loadProject "/home/user/blog"])
  /\ (forall c,
        c ∈ calls Demo.world (Faulty.handle Faulty.is_loadProject)
              (initRemote "blog" "/home/user/blog") Demo.w_ready ->
        is_remote c = false).
Proof.
  refine (initRemote_loadProject_rejected Demo.world
            (Faulty.handle Faulty.is_loadProject)
            "blog" "/home/user/blog" "dop_v1_0a1b"
            {| AppConfig.DOToken := Some "dop_v1_0a1b" |}
            (LowLevel "connection refused")
            Demo.w_ready Demo.w_ready Demo.w_ready
            eq_refl eq_refl _ eq_refl).
  discriminate.
Defined.

(** X19 with a container runtime that refuses the creation. *)
Lemma createRemoteContainer_rejected_witness :
  run Demo.world (Faulty.handle Faulty.is_containerCreate)
    (createRemoteContainer Demo.node_server Demo.blog) Demo.w_ready
  = (Rejected (LowLevel "connection refused"), Demo.w_ready,
     [containerCreate "dockdev-blog"
        (getRemoteConfig Demo.node_server Demo.blog)]).
Proof.
  exact (createRemoteContainer_rejected Demo.world
           (Faulty.handle Faulty.is_containerCreate)
           Demo.node_server Demo.blog (LowLevel "connection refused")
           Demo.w_ready Demo.w_ready eq_refl).
Defined.

(** X20 on the store that holds the array [[node_server, mongo]] at
    address 1. *)
Lemma addNginxContainer_twice_witness :
  exists (r1 r2 n1 n2 : positive) (e1 e2 : Container.t) (h1 h2 : Heap.t),
    addNginxContainer 1%positive Demo.blog Demo.h_two = (Resolved r1, h1)
    /\ addNginxContainer r1 Demo.blog h1 = (Resolved r2, h2)
    /\ Heap.arrays h2 !! r2 = Some ([1%positive; 2%positive] ++ [n1; n2])
    /\ n1 <> n2
    /\ Heap.objects h2 !! n1 = Some e1
    /\ Heap.objects h2 !! n2 = Some e2
    /\ Container.nginx e1 = true /\ Container.name e1 = "proxy"
    /\ Container.nginx e2 = true /\ Container.name e2 = "proxy"
    /\ Heap.arrays h2 !! r1 = Some ([1%positive; 2%positive] ++ [n1])
    /\ Heap.arrays h2 !! 1%positive = Some [1%positive; 2%positive].
Proof.
  exact (addNginxContainer_twice 1%positive [1%positive; 2%positive]
           Demo.blog Demo.h_two eq_refl).
Defined.

(** X11 on the [demo] project after two builds, with a remote machine
    that refuses the build. *)
Lemma buildServerImage_run_witness :
  isSafeInteger (RemoteObj.counter Demo.demo2) = true
  /\ exists c : Cmd,
      c = ssh (RemoteObj.machine Demo.demo2)
            ("docker build -t "
               +:+ Container.image (remoteServerObj Demo.demo2) +:+ " .")
      /\ run Demo.world (Faulty.handle Faulty.is_ssh)
           (buildServerImage Demo.demo2) Demo.w_ready
         = (match (Faulty.handle Faulty.is_ssh c Demo.w_ready).1 with
            | Resolved _ => Resolved true
            | Rejected e => Rejected e
            end, (Faulty.handle Faulty.is_ssh c Demo.w_ready).2, [c]).
Proof.
  split; [reflexivity |].
  exact (buildServerImage_run Demo.world (Faulty.handle Faulty.is_ssh)
           Demo.demo2 Demo.w_ready eq_refl).
Defined.

(** A build that the remote machine refuses: the rejection of [ssh] is
    what the caller sees. *)
Example buildServerImage_refused :
  run Demo.world (Faulty.handle Faulty.is_ssh)
    (buildServerImage Demo.demo2) Demo.w_ready
  = (Rejected (LowLevel "connection refused"), Demo.w_ready,
     [ssh "dockdev-demo" "docker build -t dockdev/demo:2 ."]).
Proof. reflexivity. Qed.
End MoreInstances.
